(** * MkDocs build hooks of developers.esphome.io

    A shallow embedding of the two hook callbacks

      - [hooks/comments-toc.py]  ([on_page_content])
      - [hooks/copyright.py]     ([on_config])

    Both hooks mutate objects handed to them by MkDocs, so the embedding is
    a state-and-exception monad over a heap of Python objects.  References
    are heap addresses; two references to the same list see each other's
    [append]. *)

From Stdlib Require Import ZArith String Ascii.
From stdpp Require Import gmap strings list fin_maps pretty.

Local Open Scope Z_scope.
Local Open Scope string_scope.
Local Open Scope list_scope.

(** ** Python values *)

(** Immutable data as it comes out of a page's YAML front-matter or sits in
    the MkDocs configuration: [None], booleans, integers, strings, sequences
    and string-keyed mappings. *)
#[warnings="-register-all"]
Inductive PyVal : Type :=
| PyNone
| PyBool (b : bool)
| PyInt (z : Z)
| PyStr (s : string)
| PyList (l : list PyVal)
| PyDict (kv : list (string * PyVal)).

(** Python truth-value testing on such data: [None], [False], [0], the empty
    string and empty containers are false, everything else is true. *)
Definition truthy (v : PyVal) : bool :=
  match v with
  | PyNone => false
  | PyBool b => b
  | PyInt z => negb (Z.eqb z 0)
  | PyStr s => negb (String.eqb s "")
  | PyList l => negb (bool_decide (l = []))
  | PyDict kv => negb (bool_decide (kv = []))
  end.

(** ** The object heap *)

(** Addresses of heap objects. *)
Abbreviation loc := positive (only parsing).

(** Modelled from the spec: the classes of MkDocs the hooks are handed
    objects of, which are not part of this repository; each with the
    attributes the spec's data model gives it.

    - [OPage]: a [mkdocs.structure.pages.Page]; [toc] is [None] or a
      reference to a table of contents, [meta] a reference to the
      front-matter dict.
    - [OToc]: a [TableOfContents]; [items] refers to the list of top-level
      entries.
    - [OList]: a Python [list] of references to heading entries.
    - [OLink]: an [AnchorLink] heading entry; [children] refers to the list
      of its child entries.
    - [ODict]: a [dict] with string keys.
    - [OConfig]: the [MkDocsConfig]; its options live in a string-keyed
      mapping and [config.name] reads and writes the entry [name].
    - [OFiles]: the [Files] collection, by source path; the hooks never
      look inside. *)
Inductive obj : Type :=
| OPage (toc : option loc) (meta : loc)
| OToc (items : loc)
| OList (elems : list loc)
| OLink (title id : string) (level : Z) (children : loc)
| ODict (d : gmap string PyVal)
| OConfig (data : gmap string PyVal)
| OFiles (src_paths : list string).

Abbreviation heap := (gmap positive obj) (only parsing).

(** ** Exceptions and the hook monad *)

(** The Python exceptions the modelled operations can raise.  An operation
    applied to an object of a kind it is not meant for raises what Python
    raises for the usual such object; nothing below depends on which
    exception that is.  [DanglingRef] has no Python counterpart: it marks
    an address with no object behind it, which a Python reference can never
    be. *)
Inductive exn : Type :=
| AttributeError
| TypeError
| IndexError
| KeyError
| DanglingRef.

Inductive result (A : Type) : Type :=
| Ok (a : A)
| Raise (e : exn).
Arguments Ok {A} a.
Arguments Raise {A} e.

(** A computation reads and updates the heap and either returns or raises. *)
Definition M (A : Type) : Type := heap → result (A * heap).

Definition ret {A} (a : A) : M A := λ h, Ok (a, h).

Definition bind {A B} (m : M A) (k : A → M B) : M B :=
  λ h, match m h with
       | Ok (a, h') => k a h'
       | Raise e => Raise e
       end.

Definition raise {A} (e : exn) : M A := λ _, Raise e.

Declare Scope hook_scope.
Delimit Scope hook_scope with hook.
Notation "x <- m ;; k" := (bind m (λ x, k))
  (at level 100, m at next level, right associativity) : hook_scope.
Notation "m ;; k" := (bind m (λ _, k))
  (at level 100, right associativity) : hook_scope.
Local Open Scope hook_scope.

(** ** Primitive heap operations *)

Definition deref (l : loc) : M obj :=
  λ h, match h !! l with
       | Some o => Ok (o, h)
       | None => Raise DanglingRef
       end.

Definition store (l : loc) (o : obj) : M unit :=
  λ h, Ok (tt, <[l := o]> h).

(** A new object goes to an address no object of the heap has. *)
Definition alloc (o : obj) : M loc :=
  λ h, let l := fresh (dom h) in Ok (l, <[l := o]> h).

(** ** Attribute access and builtins *)

(** [page.toc] *)
Definition getattr_toc (page : loc) : M (option loc) :=
  o <- deref page ;;
  match o with
  | OPage toc _ => ret toc
  | _ => raise AttributeError
  end.

(** [page.meta] *)
Definition getattr_meta (page : loc) : M loc :=
  o <- deref page ;;
  match o with
  | OPage _ meta => ret meta
  | _ => raise AttributeError
  end.

(** [toc.items], on whatever [page.toc] evaluated to. *)
Definition getattr_items (toc : option loc) : M loc :=
  match toc with
  | None => raise AttributeError
  | Some t =>
      o <- deref t ;;
      match o with
      | OToc items => ret items
      | _ => raise AttributeError
      end
  end.

(** [entry.children] *)
Definition getattr_children (entry : loc) : M loc :=
  o <- deref entry ;;
  match o with
  | OLink _ _ _ children => ret children
  | _ => raise AttributeError
  end.

(** [len(x)] for the builtin containers. *)
Definition builtin_len (o : obj) : option nat :=
  match o with
  | OList elems => Some (length elems)
  | ODict d => Some (size d)
  | OConfig data => Some (size data)
  | OFiles src_paths => Some (length src_paths)
  | _ => None
  end.

(** Modelled from the spec: the length of a MkDocs object.  A table of
    contents counts its top-level entries, so that it is empty exactly when
    it has none; pages and heading entries define no length. *)
Definition len (l : loc) : M (option nat) :=
  o <- deref l ;;
  match o with
  | OToc items =>
      o' <- deref items ;;
      match builtin_len o' with
      | Some n => ret (Some n)
      | None => raise TypeError
      end
  | _ => ret (builtin_len o)
  end.

(** Truth-value testing of what an attribute holds: [None] is false, an
    object with a length is true iff the length is not zero, any other
    object is true. *)
Definition truth (v : option loc) : M bool :=
  match v with
  | None => ret false
  | Some l =>
      n <- len l ;;
      match n with
      | Some n => ret (negb (Nat.eqb n 0))
      | None => ret true
      end
  end.

(** [d.get(key)] on a dict object: the stored value, or [None]. *)
Definition dict_get (d : loc) (key : string) : M PyVal :=
  o <- deref d ;;
  match o with
  | ODict m => ret (default PyNone (m !! key))
  | _ => raise AttributeError
  end.

(** [xs[i]] for a non-negative integer [i]: the element of a list, no key
    of a string-keyed mapping, and no operation of the other objects. *)
Definition list_getitem (xs : loc) (i : nat) : M loc :=
  o <- deref xs ;;
  match o with
  | OList elems =>
      match elems !! i with
      | Some x => ret x
      | None => raise IndexError
      end
  | ODict _ | OConfig _ => raise KeyError
  | _ => raise TypeError
  end.

(** [xs.append(x)]: the list object itself grows by one element. *)
Definition list_append (xs : loc) (x : loc) : M unit :=
  o <- deref xs ;;
  match o with
  | OList elems => store xs (OList (elems ++ [x]))
  | _ => raise AttributeError
  end.

(** Modelled from the spec: the constructor [AnchorLink(title, id, level)]
    of [mkdocs.structure.toc], which is not part of this repository.  A
    heading entry has a display title, an anchor identifier, a nesting
    level and an ordered sequence of child entries; a newly constructed
    entry has an empty child sequence of its own. *)
Definition AnchorLink (title id : string) (level : Z) : M loc :=
  children <- alloc (OList []) ;;
  alloc (OLink title id level children).

(** ** [hooks/comments-toc.py] *)

(** [[
def on_page_content(html, page, config, files):

    if not page.toc or not page.toc.items or not page.meta.get("comments"):
        return

    page.toc.items[0].children.append(AnchorLink("Comments", "comments", 2))
]]
    The three operands of [or] are evaluated left to right and only as far
    as needed; the receiver of [append] is evaluated before its argument. *)
Definition on_page_content (html : string) (page config files : loc) : M unit :=
  toc <- getattr_toc page ;;
  b <- truth toc ;;
  if negb b then ret tt else
  toc <- getattr_toc page ;;
  items <- getattr_items toc ;;
  b <- truth (Some items) ;;
  if negb b then ret tt else
  meta <- getattr_meta page ;;
  comments <- dict_get meta "comments" ;;
  if negb (truthy comments) then ret tt else
  toc <- getattr_toc page ;;
  items <- getattr_items toc ;;
  first <- list_getitem items 0 ;;
  children <- getattr_children first ;;
  entry <- AnchorLink "Comments" "comments" 2 ;;
  list_append children entry.

(** ** What a successful append leaves behind *)

(** The two addresses [AnchorLink] allocates on heap [h]: first the new
    entry's own child list, then the entry. *)
Definition new_children (h : heap) : loc := fresh (dom h).

Definition new_entry (h : heap) : loc :=
  fresh (dom (<[new_children h := OList []]> h)).

(** The heap after the hook appended to the list at [ch], which held [cs]. *)
Definition appended (h : heap) (ch : loc) (cs : list loc) : heap :=
  <[ch := OList (cs ++ [new_entry h])]>
    (<[new_entry h := OLink "Comments" "comments" 2 (new_children h)]>
       (<[new_children h := OList []]> h)).

(** The last statement of the hook from [.children] on, once
    [page.toc.items[0]] has evaluated to [first]. *)
Definition append_comments_to (first : loc) : M unit :=
  children <- getattr_children first ;;
  entry <- AnchorLink "Comments" "comments" 2 ;;
  list_append children entry.

(** The objects the table-of-contents hook has no business with. *)
Definition is_bystander (o : obj) : bool :=
  match o with
  | OConfig _ | OFiles _ => true
  | _ => false
  end.

(** ** [hooks/copyright.py] *)

(** A naive [datetime.datetime], field by field. *)
Record datetime : Type := mkDatetime {
  year : Z;
  month : Z;
  day : Z;
  hour : Z;
  minute : Z;
  second : Z;
  microsecond : Z
}.

(** Python strings are kept as their UTF-8 bytes. *)
Definition dquote : string := String "034"%char EmptyString.

(** A replacement field [{n}] of an f-string holding an [int]: the decimal
    digits, with a leading minus sign below zero. *)
Definition format_int (n : Z) : string := pretty n.

(** The f-string of the hook, with the value of its one replacement field. *)
Definition copyright_prefix : string := "Copyright © ".

Definition copyright_suffix : string :=
  " ESPHome - A project from the <a target=" +:+ dquote +:+ "_blank" +:+
  dquote +:+ " href=" +:+ dquote +:+ "https://www.openhomefoundation.org/" +:+
  dquote +:+ ">Open Home Foundation</a>".

Definition copyright_fstring (y : Z) : string :=
  copyright_prefix +:+ format_int y +:+ copyright_suffix.

(** [config.copyright = value] *)
Definition setattr_copyright (config : loc) (value : PyVal) : M unit :=
  o <- deref config ;;
  match o with
  | OConfig data => store config (OConfig (<["copyright" := value]> data))
  | _ => raise AttributeError
  end.

(** [[
def on_config(config, **kwargs):
    config.copyright = f'Copyright © {datetime.now().year} ESPHome - A project from the <a target="_blank" href="https://www.openhomefoundation.org/">Open Home Foundation</a>'
]]
    [now] is what [datetime.now()] returns when the call executes: the
    reading of the host clock. *)
Definition on_config (now : datetime) (config : loc)
  (kwargs : gmap string PyVal) : M unit :=
  setattr_copyright config (PyStr (copyright_fstring (year now))).

(** The fixed template of the spec, byte by byte: what comes before the
    year and what comes after it. *)
Definition template_head : string :=
  string_of_list_ascii (map ascii_of_nat
    [67; 111; 112; 121; 114; 105; 103; 104; 116; 32; 194; 169; 32]%nat).

Definition template_tail : string :=
  string_of_list_ascii (map ascii_of_nat
    [32; 69; 83; 80; 72; 111; 109; 101; 32; 45; 32; 65; 32; 112; 114;
     111; 106; 101; 99; 116; 32; 102; 114; 111; 109; 32; 116; 104; 101; 32;
     60; 97; 32; 116; 97; 114; 103; 101; 116; 61; 34; 95; 98; 108; 97; 110;
     107; 34; 32; 104; 114; 101; 102; 61; 34; 104; 116; 116; 112; 115; 58;
     47; 47; 119; 119; 119; 46; 111; 112; 101; 110; 104; 111; 109; 101; 102;
     111; 117; 110; 100; 97; 116; 105; 111; 110; 46; 111; 114; 103; 47; 34;
     62; 79; 112; 101; 110; 32; 72; 111; 109; 101; 32; 70; 111; 117; 110;
     100; 97; 116; 105; 111; 110; 60; 47; 97; 62]%nat).

Definition copyright_template (y : string) : string :=
  template_head +:+ y +:+ template_tail.

(** A decimal digit as a character. *)
Definition digit (d : Z) : ascii := ascii_of_nat (48 + Z.to_nat d).

(** The four decimal digits of a year between 1000 and 9999. *)
Definition four_digits (y : Z) : string :=
  String (digit (y / 1000)) (String (digit (y / 100 mod 10))
    (String (digit (y / 10 mod 10)) (String (digit (y mod 10)) EmptyString))).

(** The copyright string the spec gives for the year 2024, byte by byte. *)
Definition copyright_2024 : string :=
  string_of_list_ascii (map ascii_of_nat
    [67; 111; 112; 121; 114; 105; 103; 104; 116; 32; 194; 169; 32; 50; 48;
     50; 52; 32; 69; 83; 80; 72; 111; 109; 101; 32; 45; 32; 65; 32; 112; 114;
     111; 106; 101; 99; 116; 32; 102; 114; 111; 109; 32; 116; 104; 101; 32;
     60; 97; 32; 116; 97; 114; 103; 101; 116; 61; 34; 95; 98; 108; 97; 110;
     107; 34; 32; 104; 114; 101; 102; 61; 34; 104; 116; 116; 112; 115; 58;
     47; 47; 119; 119; 119; 46; 111; 112; 101; 110; 104; 111; 109; 101; 102;
     111; 117; 110; 100; 97; 116; 105; 111; 110; 46; 111; 114; 103; 47; 34;
     62; 79; 112; 101; 110; 32; 72; 111; 109; 101; 32; 70; 111; 117; 110;
     100; 97; 116; 105; 111; 110; 60; 47; 97; 62]%nat).

(** ** Pages *)

(** [is_page h page entries md]: on heap [h], [page] is a page whose table
    of contents has the top-level entries [entries], none when the page has
    no table of contents at all, and whose metadata mapping is [md]. *)
Inductive is_page (h : heap) (page : loc)
  (entries : list loc) (md : gmap string PyVal) : Prop :=
| page_without_toc (m : loc) :
    h !! page = Some (OPage None m) →
    h !! m = Some (ODict md) →
    entries = [] →
    is_page h page entries md
| page_with_toc (t its m : loc) :
    h !! page = Some (OPage (Some t) m) →
    h !! t = Some (OToc its) →
    h !! its = Some (OList entries) →
    h !! m = Some (ODict md) →
    is_page h page entries md.

(** Unfolds the hook down to heap lookups and resolves those the context
    knows. *)
Ltac run_hook :=
  unfold on_page_content, getattr_toc, getattr_meta, getattr_items,
    getattr_children, truth, len, dict_get, list_getitem, list_append,
    store, deref, bind, ret, raise;
  repeat match goal with
         | H : ?h !! ?l = Some _ |- context [?h !! ?l] => rewrite H
         | |- _ => progress cbn [builtin_len negb Nat.eqb length lookup
                                 list_lookup default from_option id]
         end.

(** ** Reading a configuration back *)

(** What [config.copyright] evaluates to on heap [h]. *)
Definition config_copyright (h : heap) (config : loc) : option PyVal :=
  match h !! config with
  | Some (OConfig data) => data !! "copyright"
  | _ => None
  end.

(** ** Sample inputs *)

(** A page with two top-level headings, the first with one child, whose
    front-matter asks for comments; next to it the site configuration and
    the file collection. *)
Definition sample_meta : gmap string PyVal :=
  <["comments" := PyBool true]> (<["title" := PyStr "Contributing"]> ∅).

Definition sample_data : gmap string PyVal :=
  <["copyright" := PyStr "(c) somebody"]>
    (<["site_name" := PyStr "ESPHome Developer Documentation"]> ∅).

Definition sample_heap : heap :=
  <[1%positive := OPage (Some 2%positive) 3%positive]> (
  <[2%positive := OToc 4%positive]> (
  <[3%positive := ODict sample_meta]> (
  <[4%positive := OList [5%positive; 6%positive]]> (
  <[5%positive := OLink "Contributing" "contributing" 1 7%positive]> (
  <[6%positive := OLink "Licence" "licence" 1 8%positive]> (
  <[7%positive := OList [9%positive]]> (
  <[8%positive := OList []]> (
  <[9%positive := OLink "Setup" "setup" 2 10%positive]> (
  <[10%positive := OList []]> (
  <[11%positive := OConfig sample_data]> (
  <[12%positive := OFiles ["index.md"; "contributing.md"]]> ∅))))))))))).

(** The same page once its table of contents is gone. *)
Definition sample_heap_no_toc : heap :=
  <[1%positive := OPage None 3%positive]> sample_heap.

(** A malformed table of contents: the first entry's child list is the
    top-level list itself. *)
Definition sample_heap_shared : heap :=
  <[5%positive := OLink "Contributing" "contributing" 1 4%positive]>
    sample_heap.

(** A second site: no options set at all. *)
Definition sample_heap_bare : heap := {[ 1%positive := OConfig ∅ ]}.

Definition sample_now : datetime := mkDatetime 2024 5 17 9 30 0 0.

Definition sample_later : datetime := mkDatetime 2024 12 31 23 59 59 999999.

Definition sample_next_year : datetime := mkDatetime 2025 1 1 0 0 0 0.

(** ** Running a hook several times *)

(** [k] calls of the same hook, one after the other. *)
Fixpoint repeat_hook (k : nat) (m : M unit) : M unit :=
  match k with
  | O => ret tt
  | S k' => m ;; repeat_hook k' m
  end.

(** ** A table of contents read back as the tree it shows *)

(** What the navigation renders: a heading with the headings below it. *)
#[warnings="-register-all"]
Inductive Tree : Type :=
| Node (title id : string) (level : Z) (kids : list Tree).

(** Reads the elements of a list one by one with [r]; next to the values it
    collects the addresses of the list objects that were walked through. *)
Fixpoint read_all {A : Type} (r : loc → option (A * list loc))
  (xs : list loc) : option (list A * list loc) :=
  match xs with
  | [] => Some ([], [])
  | x :: xs' =>
      match r x, read_all r xs' with
      | Some (a, fp), Some (l, fps) => Some (a :: l, fp ++ fps)
      | _, _ => None
      end
  end.

(** The tree below the heading entry at [l], down to depth [fuel], with the
    addresses of the child lists it is made of. *)
Fixpoint read_entry (fuel : nat) (h : heap) (l : loc)
  : option (Tree * list loc) :=
  match fuel with
  | O => None
  | S fuel' =>
      match h !! l with
      | Some (OLink title id level children) =>
          match h !! children with
          | Some (OList xs) =>
              match read_all (read_entry fuel' h) xs with
              | Some (kids, fp) =>
                  Some (Node title id level kids, children :: fp)
              | None => None
              end
          | _ => None
          end
      | _ => None
      end
  end.

(** The table of contents of [page] as a forest; no table of contents reads
    as no tree. *)
Definition read_toc (fuel : nat) (h : heap) (page : loc)
  : option (list Tree * list loc) :=
  match h !! page with
  | Some (OPage None _) => Some ([], [])
  | Some (OPage (Some t) _) =>
      match h !! t with
      | Some (OToc items) =>
          match h !! items with
          | Some (OList xs) =>
              match read_all (read_entry fuel h) xs with
              | Some (trees, fp) => Some (trees, items :: fp)
              | None => None
              end
          | _ => None
          end
      | _ => None
      end
  | _ => None
  end.

(** A page whose metadata attribute refers to something that is no dict. *)
Definition sample_heap_odd_meta : heap :=
  <[1%positive := OPage None 12%positive]> sample_heap.

(** Front-matter with [comments: "false"], a string. *)
Definition sample_heap_string_flag : heap :=
  <[3%positive := ODict (<["comments" := PyStr "false"]> sample_meta)]>
    sample_heap.

(** A second page on the same heap, with one heading and comments asked
    for as well. *)
Definition sample_heap_two_pages : heap :=
  <[20%positive := OPage (Some 21%positive) 25%positive]> (
  <[21%positive := OToc 22%positive]> (
  <[22%positive := OList [23%positive]]> (
  <[23%positive := OLink "Changelog" "changelog" 1 24%positive]> (
  <[24%positive := OList []]> (
  <[25%positive := ODict sample_meta]> sample_heap))))).

(** * Properties *)

(** ** Allocation *)

Lemma new_children_fresh (h : heap) : h !! new_children h = None.
Proof. apply not_elem_of_dom, (is_fresh (dom h)). Qed.

Lemma new_entry_fresh (h : heap) : h !! new_entry h = None.
Proof.
  assert (Hn : new_entry h ∉ dom (<[new_children h := OList []]> h))
    by apply (is_fresh (dom (<[new_children h := OList []]> h))).
  rewrite dom_insert_L in Hn. apply not_elem_of_dom. set_solver.
Qed.

Lemma new_entry_neq_children (h : heap) : new_entry h ≠ new_children h.
Proof.
  assert (Hn : new_entry h ∉ dom (<[new_children h := OList []]> h))
    by apply (is_fresh (dom (<[new_children h := OList []]> h))).
  rewrite dom_insert_L in Hn. set_solver.
Qed.

Lemma allocated_neq_new (h : heap) (l : loc) :
  is_Some (h !! l) → l ≠ new_children h ∧ l ≠ new_entry h.
Proof.
  intros [o Ho]. split; intros ->.
  - by rewrite new_children_fresh in Ho.
  - by rewrite new_entry_fresh in Ho.
Qed.

Lemma AnchorLink_run (title id : string) (level : Z) (h : heap) :
  AnchorLink title id level h =
  Ok (new_entry h,
      <[new_entry h := OLink title id level (new_children h)]>
        (<[new_children h := OList []]> h)).
Proof. reflexivity. Qed.

(** Lookups in the heap after an append. *)
Lemma appended_lookup_children (h : heap) (ch : loc) (cs : list loc) :
  appended h ch cs !! ch = Some (OList (cs ++ [new_entry h])).
Proof. unfold appended. by rewrite lookup_insert_eq. Qed.

Lemma appended_lookup_ne (h : heap) (ch : loc) (cs : list loc) (l : loc) :
  is_Some (h !! l) → l ≠ ch → appended h ch cs !! l = h !! l.
Proof.
  intros Hl Hne. destruct (allocated_neq_new h l Hl) as [H1 H2].
  unfold appended. by rewrite !lookup_insert_ne.
Qed.

Lemma appended_lookup_entry (h : heap) (ch : loc) (cs : list loc) :
  is_Some (h !! ch) →
  appended h ch cs !! new_entry h =
  Some (OLink "Comments" "comments" 2 (new_children h)).
Proof.
  intros Hch. destruct (allocated_neq_new h ch Hch) as [H1 H2].
  unfold appended. rewrite lookup_insert_ne by done.
  by rewrite lookup_insert_eq.
Qed.

Lemma appended_lookup_new_children (h : heap) (ch : loc) (cs : list loc) :
  is_Some (h !! ch) →
  appended h ch cs !! new_children h = Some (OList []).
Proof.
  intros Hch. destruct (allocated_neq_new h ch Hch) as [H1 H2].
  pose proof (new_entry_neq_children h) as H3.
  unfold appended. rewrite !lookup_insert_ne by done.
  by rewrite lookup_insert_eq.
Qed.

Section no_op.
Context (html : string) (page config files : loc) (h : heap).
Context (entries : list loc) (md : gmap string PyVal).
Hypothesis Hpage : is_page h page entries md.

Lemma on_page_content_no_entries :
  entries = [] → on_page_content html page config files h = Ok (tt, h).
Proof using Hpage.
  intros ->. destruct Hpage as [m Hp Hm _ | t its m Hp Ht Hi Hm];
    by run_hook.
Qed.

Lemma on_page_content_no_comments :
  truthy (default PyNone (md !! "comments")) = false →
  on_page_content html page config files h = Ok (tt, h).
Proof using Hpage.
  intros Hc. destruct Hpage as [m Hp Hm _ | t its m Hp Ht Hi Hm].
  - by run_hook.
  - run_hook. destruct entries; cbn; [done|].
    run_hook. by rewrite Hc.
Qed.
End no_op.

(** ** Qualifying pages: a first entry and a request for comments *)

Section qualifying.
Context (html : string) (page config files : loc) (h : heap).
Context (e : loc) (es : list loc) (md : gmap string PyVal) (v : PyVal).
Context (ti i : string) (lv : Z) (ch : loc) (cs : list loc).
Hypothesis Hpage : is_page h page (e :: es) md.
Hypothesis Hcomments : md !! "comments" = Some v.
Hypothesis Htruthy : truthy v = true.
Hypothesis Hfirst : h !! e = Some (OLink ti i lv ch).
Hypothesis Hchildren : h !! ch = Some (OList cs).

(** The whole effect of the hook on a qualifying page. *)
Lemma on_page_content_appends :
  on_page_content html page config files h = Ok (tt, appended h ch cs).
Proof using Hpage Hcomments Htruthy Hfirst Hchildren.
  destruct Hpage as [m Hp Hm [=] | t its m Hp Ht Hi Hm].
  run_hook. rewrite Htruthy. run_hook. rewrite AnchorLink_run.
  assert (Hch : is_Some (h !! ch)) by eauto.
  destruct (allocated_neq_new h ch Hch) as [H1 H2].
  rewrite !lookup_insert_ne by done. by rewrite Hchildren.
Qed.

(** The page still qualifies afterwards, with one more child. *)
Lemma appended_is_page :
  ∃ es', is_page (appended h ch cs) page (e :: es') md.
Proof using Hpage Hfirst Hchildren.
  destruct Hpage as [m Hp Hm [=] | t its m Hp Ht Hi Hm].
  assert (Hne : ∀ l o, h !! l = Some o → (∀ xs, o ≠ OList xs) →
                       appended h ch cs !! l = Some o).
  { intros l o Hl Ho. rewrite appended_lookup_ne; eauto.
    intros ->. rewrite Hchildren in Hl. injection Hl as <-. by eapply Ho. }
  destruct (decide (its = ch)) as [-> | Hic].
  - exists (es ++ [new_entry h]). eapply page_with_toc; eauto.
    rewrite appended_lookup_children.
    rewrite Hchildren in Hi. by injection Hi as ->.
  - exists es. eapply page_with_toc; eauto.
    rewrite appended_lookup_ne; eauto.
Qed.

Lemma appended_first :
  appended h ch cs !! e = Some (OLink ti i lv ch).
Proof using Hfirst Hchildren.
  rewrite appended_lookup_ne; [done | by rewrite Hfirst |]. congruence.
Qed.
End qualifying.

(** ** The copyright string *)

Lemma list_ascii_of_string_app (s1 s2 : string) :
  list_ascii_of_string (s1 +:+ s2) =
  list_ascii_of_string s1 ++ list_ascii_of_string s2.
Proof. induction s1 as [| c s1 IH]; simpl; [done | by f_equal]. Qed.

Lemma string_app_inv_tail (s1 s2 t : string) :
  s1 +:+ t = s2 +:+ t → s1 = s2.
Proof.
  intros H. apply (f_equal list_ascii_of_string) in H.
  rewrite !list_ascii_of_string_app in H. apply app_inv_tail in H.
  rewrite <- (string_of_list_ascii_of_string s1).
  rewrite <- (string_of_list_ascii_of_string s2). by rewrite H.
Qed.

(** Different years give different strings. *)
Lemma copyright_fstring_inj (y1 y2 : Z) :
  copyright_fstring y1 = copyright_fstring y2 → y1 = y2.
Proof.
  unfold copyright_fstring. intros H.
  apply String.app_inj in H. apply string_app_inv_tail in H.
  by apply pretty_Z_inj in H.
Qed.

Example copyright_fstring_2024 : copyright_fstring 2024 = copyright_2024.
Proof. vm_compute. reflexivity. Qed.

Lemma on_config_run (now : datetime) (config : loc)
  (kwargs : gmap string PyVal) (h : heap) (data : gmap string PyVal) :
  h !! config = Some (OConfig data) →
  on_config now config kwargs h =
  Ok (tt, <[config :=
             OConfig (<["copyright" := PyStr (copyright_fstring (year now))]>
                        data)]> h).
Proof.
  intros H. unfold on_config, setattr_copyright, bind, deref, store.
  by rewrite H.
Qed.

Lemma config_copyright_on_config (h : heap) (config : loc)
  (data : gmap string PyVal) (value : PyVal) :
  config_copyright (<[config := OConfig (<["copyright" := value]> data)]> h)
    config = Some value.
Proof.
  unfold config_copyright. rewrite lookup_insert_eq.
  by rewrite lookup_insert_eq.
Qed.

(** ** Every run of [on_page_content] *)

(** Whatever the page looks like, a call that returns has either left the
    heap alone or appended to one list. *)
Lemma on_page_content_inv (html : string) (page config files : loc)
  (h h' : heap) (u : unit) :
  on_page_content html page config files h = Ok (u, h') →
  h' = h ∨
  ∃ ch cs, (h !! ch = Some (OList cs) ∨ (h !! ch = None ∧ cs = [])) ∧
           h' = appended h ch cs.
Proof.
  unfold on_page_content, getattr_toc, getattr_meta, getattr_items,
    getattr_children, truth, len, dict_get, list_getitem, bind, ret, raise,
    deref.
  intros H.
  repeat (case_match; simplify_eq; try by left).
  right.
  match goal with
  | Ha : AnchorLink _ _ _ ?g = Ok _, Hl : list_append ?c _ _ = Ok _ |- _ =>
      rename g into h0; rename c into c0;
      rewrite AnchorLink_run in Ha; injection Ha as <- <-;
      unfold list_append, bind, deref, store in Hl;
      destruct (decide (c0 = new_entry h0)) as [-> | Hne];
      [ by rewrite lookup_insert_eq in Hl
      | rewrite lookup_insert_ne in Hl by done ];
      destruct (decide (c0 = new_children h0)) as [-> | Hnc];
      [ rewrite lookup_insert_eq in Hl
      | rewrite lookup_insert_ne in Hl by done ]
  end.
  - simplify_eq. exists (new_children h0), [].
    split; [right; split; [apply new_children_fresh | done] | done].
  - destruct (h0 !! c0) as [[]|] eqn:Hc; simplify_eq.
    eexists _, _. split; [by left | done].
Qed.

Lemma on_page_content_frame (html : string) (page config files : loc)
  (h h' : heap) (u : unit) (l : loc) (o : obj) :
  on_page_content html page config files h = Ok (u, h') →
  h !! l = Some o → (∀ xs, o ≠ OList xs) → h' !! l = Some o.
Proof.
  intros Hrun Hl Ho.
  destruct (on_page_content_inv _ _ _ _ _ _ _ Hrun)
    as [-> | (ch & cs & Hch & ->)]; [done|].
  rewrite appended_lookup_ne; [done | by rewrite Hl |].
  intros ->. destruct Hch as [Hch | [Hch _]]; rewrite Hl in Hch.
  - injection Hch as ->. by eapply Ho.
  - discriminate.
Qed.

(** * The table-of-contents hook *)

(** C2.  On a page whose table of contents has a first top-level entry and
    whose metadata holds a truthy value under ["comments"], the hook returns
    normally and the child list of that first entry is what it was followed
    by exactly one entry, a new object with title ["Comments"], anchor
    ["comments"] and level [2]. *)
Theorem on_page_content_appends_comments
  (html : string) (page config files : loc) (h : heap)
  (e : loc) (es : list loc) (md : gmap string PyVal) (v : PyVal)
  (ti i : string) (lv : Z) (ch : loc) (cs : list loc) :
  is_page h page (e :: es) md →
  md !! "comments" = Some v →
  truthy v = true →
  h !! e = Some (OLink ti i lv ch) →
  h !! ch = Some (OList cs) →
  ∃ (h' : heap) (n k : loc),
    on_page_content html page config files h = Ok (tt, h') ∧
    h !! n = None ∧
    h' !! e = Some (OLink ti i lv ch) ∧
    h' !! ch = Some (OList (cs ++ [n])) ∧
    length (cs ++ [n]) = S (length cs) ∧
    h' !! n = Some (OLink "Comments" "comments" 2 k).
Proof.
  intros Hpage Hc Hv He Hch.
  exists (appended h ch cs), (new_entry h), (new_children h).
  split_and!.
  - by eapply on_page_content_appends.
  - apply new_entry_fresh.
  - by eapply appended_first.
  - apply appended_lookup_children.
  - rewrite length_app. cbn. lia.
  - apply appended_lookup_entry. by rewrite Hch.
Qed.

Lemma sample_is_page : is_page sample_heap 1 [5; 6]%positive sample_meta.
Proof. by apply (page_with_toc _ _ _ _ 2 4 3)%positive; vm_compute. Qed.

Lemma on_page_content_appends_comments_witness :
  ∃ (h' : heap) (n k : loc),
    on_page_content "<h1>Contributing</h1>" 1 11 12 sample_heap = Ok (tt, h') ∧
    sample_heap !! n = None ∧
    h' !! 5%positive = Some (OLink "Contributing" "contributing" 1 7) ∧
    h' !! 7%positive = Some (OList ([9%positive] ++ [n])) ∧
    length ([9%positive] ++ [n]) = S (length [9%positive]) ∧
    h' !! n = Some (OLink "Comments" "comments" 2 k).
Proof.
  apply (on_page_content_appends_comments "<h1>Contributing</h1>" 1 11 12
           sample_heap 5 [6%positive] sample_meta (PyBool true)
           "Contributing" "contributing" 1 7 [9%positive]).
  - apply sample_is_page.
  - vm_compute. reflexivity.
  - reflexivity.
  - vm_compute. reflexivity.
  - vm_compute. reflexivity.
Defined.

(** C3.  On a page whose table of contents is absent or has no top-level
    entry, and on a page whose metadata holds no truthy value under
    ["comments"], the hook returns at once and the heap, hence the page, its
    table of contents and its metadata, is exactly what it was. *)
Theorem on_page_content_no_op
  (html : string) (page config files : loc) (h : heap)
  (entries : list loc) (md : gmap string PyVal) :
  is_page h page entries md →
  entries = [] ∨ (∀ v, md !! "comments" = Some v → truthy v = false) →
  on_page_content html page config files h = Ok (tt, h).
Proof.
  intros Hpage [Hempty | Hfalsy].
  - by eapply on_page_content_no_entries.
  - eapply on_page_content_no_comments; [done|].
    destruct (md !! "comments") as [v|]; cbn; [by apply Hfalsy | done].
Qed.

Lemma sample_no_toc_is_page : is_page sample_heap_no_toc 1 [] sample_meta.
Proof. by apply (page_without_toc _ _ _ _ 3%positive); vm_compute. Qed.

Lemma on_page_content_no_op_witness :
  on_page_content "" 1 11 12 sample_heap_no_toc = Ok (tt, sample_heap_no_toc).
Proof.
  apply (on_page_content_no_op "" 1 11 12 sample_heap_no_toc [] sample_meta).
  - apply sample_no_toc_is_page.
  - left. reflexivity.
Defined.

(** The other two ways into the early return, on concrete pages: a table of
    contents without entries, and front-matter that turns comments off. *)
Example on_page_content_empty_toc :
  let h := <[4%positive := OList []]> sample_heap in
  on_page_content "" 1 11 12 h = Ok (tt, h).
Proof. vm_compute. reflexivity. Qed.

Example on_page_content_comments_off :
  let h := <[3%positive := ODict (<["comments" := PyBool false]> sample_meta)]>
             sample_heap in
  on_page_content "" 1 11 12 h = Ok (tt, h).
Proof. vm_compute. reflexivity. Qed.

Example on_page_content_comments_missing :
  let h := <[3%positive := ODict (delete "comments" sample_meta)]>
             sample_heap in
  on_page_content "" 1 11 12 h = Ok (tt, h).
Proof. vm_compute. reflexivity. Qed.

(** C4.  When the hook appends, the one object of the old heap it changes is
    the child list of the first top-level entry, whose earlier elements stay
    in place.  On a table of contents where that entry is not its own
    child, the page keeps its top-level entries, in number and order, and
    its metadata; every heading entry among the other top-level entries and
    among the earlier children is the object it was. *)
Theorem on_page_content_frame_qualifying
  (html : string) (page config files : loc) (h : heap)
  (e : loc) (es : list loc) (md : gmap string PyVal) (v : PyVal)
  (ti i : string) (lv : Z) (ch : loc) (cs : list loc) :
  is_page h page (e :: es) md →
  md !! "comments" = Some v →
  truthy v = true →
  h !! e = Some (OLink ti i lv ch) →
  h !! ch = Some (OList cs) →
  e ∉ cs →
  ∃ (h' : heap) (n : loc),
    on_page_content html page config files h = Ok (tt, h') ∧
    h !! n = None ∧
    (∀ l, is_Some (h !! l) → l ≠ ch → h' !! l = h !! l) ∧
    h' !! ch = Some (OList (cs ++ [n])) ∧
    is_page h' page (e :: es) md ∧
    h' !! e = Some (OLink ti i lv ch) ∧
    (∀ l ti' i' lv' ch', l ∈ es ++ cs →
       h !! l = Some (OLink ti' i' lv' ch') →
       h' !! l = Some (OLink ti' i' lv' ch')).
Proof.
  intros Hpage Hc Hv He Hch Hacyclic.
  assert (Hkeep : ∀ l o, h !! l = Some o → (∀ xs, o ≠ OList xs) →
                         appended h ch cs !! l = Some o).
  { intros l o Hl Ho. rewrite appended_lookup_ne; [done | by rewrite Hl |].
    intros ->. rewrite Hch in Hl. injection Hl as <-. by eapply Ho. }
  exists (appended h ch cs), (new_entry h). split_and!.
  - by eapply on_page_content_appends.
  - apply new_entry_fresh.
  - intros l Hl Hne. by apply appended_lookup_ne.
  - apply appended_lookup_children.
  - destruct Hpage as [m Hp Hm [=] | t its m Hp Ht Hi Hm].
    apply (page_with_toc _ _ _ _ t its m); try by apply Hkeep.
    rewrite appended_lookup_ne; [done | by rewrite Hi |].
    intros ->. rewrite Hch in Hi. injection Hi as ->.
    apply Hacyclic. by left.
  - by apply Hkeep.
  - intros l ti' i' lv' ch' _ Hl. by apply Hkeep.
Qed.

Lemma on_page_content_frame_qualifying_witness :
  ∃ (h' : heap) (n : loc),
    on_page_content "" 1 11 12 sample_heap = Ok (tt, h') ∧
    sample_heap !! n = None ∧
    (∀ l, is_Some (sample_heap !! l) → l ≠ 7%positive →
          h' !! l = sample_heap !! l) ∧
    h' !! 7%positive = Some (OList ([9%positive] ++ [n])) ∧
    is_page h' 1 (5 :: [6])%positive sample_meta ∧
    h' !! 5%positive = Some (OLink "Contributing" "contributing" 1 7) ∧
    (∀ l ti' i' lv' ch', l ∈ [6%positive] ++ [9%positive] →
       sample_heap !! l = Some (OLink ti' i' lv' ch') →
       h' !! l = Some (OLink ti' i' lv' ch')).
Proof.
  apply (on_page_content_frame_qualifying "" 1 11 12 sample_heap 5
           [6%positive] sample_meta (PyBool true)
           "Contributing" "contributing" 1 7 [9%positive]).
  - apply sample_is_page.
  - vm_compute. reflexivity.
  - reflexivity.
  - vm_compute. reflexivity.
  - vm_compute. reflexivity.
  - intros Hin. apply list_elem_of_singleton in Hin. discriminate.
Defined.

(** What the side condition rules out, a heap that is not a tree: were the
    first entry's child list the top-level list itself, the one append
    would show up among the top-level entries as well. *)
Remark on_page_content_shared_list :
  ∃ (h' : heap) (n : loc),
    on_page_content "" 1 11 12 sample_heap_shared = Ok (tt, h') ∧
    sample_heap_shared !! 4%positive = Some (OList [5; 6]%positive) ∧
    h' !! 4%positive = Some (OList [5; 6; n]%positive).
Proof. eexists _, _. vm_compute. split_and!; reflexivity. Qed.

(** C5.  The hook is not idempotent.  Run twice in a row on a qualifying
    page, it appends twice: the first entry's child list ends up two longer
    and ends with two distinct new entries, each titled ["Comments"] with
    anchor ["comments"], level [2] and no children; the second run changes
    the heap again. *)
Theorem on_page_content_twice
  (html : string) (page config files : loc) (h : heap)
  (e : loc) (es : list loc) (md : gmap string PyVal) (v : PyVal)
  (ti i : string) (lv : Z) (ch : loc) (cs : list loc) :
  is_page h page (e :: es) md →
  md !! "comments" = Some v →
  truthy v = true →
  h !! e = Some (OLink ti i lv ch) →
  h !! ch = Some (OList cs) →
  ∃ (h1 h2 : heap) (n1 n2 k1 k2 : loc),
    on_page_content html page config files h = Ok (tt, h1) ∧
    on_page_content html page config files h1 = Ok (tt, h2) ∧
    (on_page_content html page config files ;;
     on_page_content html page config files) h = Ok (tt, h2) ∧
    h1 !! ch = Some (OList (cs ++ [n1])) ∧
    h2 !! ch = Some (OList (cs ++ [n1; n2])) ∧
    length (cs ++ [n1; n2]) = S (S (length cs)) ∧
    n1 ≠ n2 ∧
    h2 !! n1 = Some (OLink "Comments" "comments" 2 k1) ∧
    h2 !! n2 = Some (OLink "Comments" "comments" 2 k2) ∧
    h2 !! k1 = Some (OList []) ∧
    h2 !! k2 = Some (OList []) ∧
    h2 ≠ h1.
Proof.
  intros Hpage Hc Hv He Hch.
  pose proof (on_page_content_appends html page config files h e es md v
                ti i lv ch cs Hpage Hc Hv He Hch) as Hrun1.
  set (h1 := appended h ch cs) in *.
  destruct (appended_is_page page h e es md ti i lv ch cs Hpage He Hch)
    as [es' Hpage1].
  pose proof (appended_first h e ti i lv ch cs He Hch) as He1.
  pose proof (appended_lookup_children h ch cs) as Hch1.
  fold h1 in Hpage1, He1, Hch1.
  pose proof (on_page_content_appends html page config files h1 e es' md v
                ti i lv ch (cs ++ [new_entry h]) Hpage1 Hc Hv He1 Hch1)
    as Hrun2.
  set (h2 := appended h1 ch (cs ++ [new_entry h])) in *.
  assert (Hsome : is_Some (h !! ch)) by (by rewrite Hch).
  assert (Hsome1 : is_Some (h1 !! ch)) by (by rewrite Hch1).
  assert (Hn1 : h1 !! new_entry h =
                Some (OLink "Comments" "comments" 2 (new_children h)))
    by (by apply appended_lookup_entry).
  assert (Hk1 : h1 !! new_children h = Some (OList []))
    by (by apply appended_lookup_new_children).
  destruct (allocated_neq_new h ch Hsome) as [Hchk Hchn].
  assert (Hch2 : h2 !! ch = Some (OList (cs ++ [new_entry h; new_entry h1]))).
  { unfold h2. rewrite appended_lookup_children. by rewrite <- app_assoc. }
  exists h1, h2, (new_entry h), (new_entry h1),
    (new_children h), (new_children h1).
  split_and!; try done.
  - unfold bind. by rewrite Hrun1.
  - rewrite length_app. cbn. lia.
  - intros Heq. pose proof (new_entry_fresh h1) as Hfresh.
    rewrite <- Heq, Hn1 in Hfresh. discriminate.
  - unfold h2. rewrite appended_lookup_ne; [done | by rewrite Hn1 | done].
  - by apply appended_lookup_entry.
  - unfold h2. rewrite appended_lookup_ne; [done | by rewrite Hk1 | done].
  - by apply appended_lookup_new_children.
  - intros Heq. rewrite Heq, Hch1 in Hch2. injection Hch2 as Hl.
    apply (f_equal length) in Hl. rewrite !length_app in Hl. cbn in Hl. lia.
Qed.

Lemma on_page_content_twice_witness :
  ∃ (h1 h2 : heap) (n1 n2 k1 k2 : loc),
    on_page_content "" 1 11 12 sample_heap = Ok (tt, h1) ∧
    on_page_content "" 1 11 12 h1 = Ok (tt, h2) ∧
    (on_page_content "" 1 11 12 ;; on_page_content "" 1 11 12) sample_heap =
      Ok (tt, h2) ∧
    h1 !! 7%positive = Some (OList ([9%positive] ++ [n1])) ∧
    h2 !! 7%positive = Some (OList ([9%positive] ++ [n1; n2])) ∧
    length ([9%positive] ++ [n1; n2]) = S (S (length [9%positive])) ∧
    n1 ≠ n2 ∧
    h2 !! n1 = Some (OLink "Comments" "comments" 2 k1) ∧
    h2 !! n2 = Some (OLink "Comments" "comments" 2 k2) ∧
    h2 !! k1 = Some (OList []) ∧
    h2 !! k2 = Some (OList []) ∧
    h2 ≠ h1.
Proof.
  apply (on_page_content_twice "" 1 11 12 sample_heap 5 [6%positive]
           sample_meta (PyBool true) "Contributing" "contributing" 1 7
           [9%positive]).
  - apply sample_is_page.
  - vm_compute. reflexivity.
  - reflexivity.
  - vm_compute. reflexivity.
  - vm_compute. reflexivity.
Defined.

(** The two runs on the sample page, evaluated. *)
Example on_page_content_twice_sample :
  ∃ h2, (on_page_content "" 1 11 12 ;; on_page_content "" 1 11 12)
          sample_heap = Ok (tt, h2) ∧
        h2 !! 7%positive = Some (OList [9; 14; 16]%positive) ∧
        h2 !! 14%positive = Some (OLink "Comments" "comments" 2 13) ∧
        h2 !! 16%positive = Some (OLink "Comments" "comments" 2 15) ∧
        h2 !! 13%positive = Some (OList []) ∧
        h2 !! 15%positive = Some (OList []).
Proof. eexists. vm_compute. split_and!; reflexivity. Qed.

(** C8.  The entry the hook appends is newly constructed: right after the
    append it is the last child of the first top-level entry, and its own
    child list is a new, empty list. *)
Theorem on_page_content_new_entry_childless
  (html : string) (page config files : loc) (h : heap)
  (e : loc) (es : list loc) (md : gmap string PyVal) (v : PyVal)
  (ti i : string) (lv : Z) (ch : loc) (cs : list loc) :
  is_page h page (e :: es) md →
  md !! "comments" = Some v →
  truthy v = true →
  h !! e = Some (OLink ti i lv ch) →
  h !! ch = Some (OList cs) →
  ∃ (h' : heap) (kids : list loc) (n k : loc),
    on_page_content html page config files h = Ok (tt, h') ∧
    h' !! e = Some (OLink ti i lv ch) ∧
    h' !! ch = Some (OList kids) ∧
    last kids = Some n ∧
    h' !! n = Some (OLink "Comments" "comments" 2 k) ∧
    h !! n = None ∧
    h' !! k = Some (OList []) ∧
    h !! k = None.
Proof.
  intros Hpage Hc Hv He Hch.
  assert (Hsome : is_Some (h !! ch)) by (by rewrite Hch).
  exists (appended h ch cs), (cs ++ [new_entry h]), (new_entry h),
    (new_children h).
  split_and!.
  - by eapply on_page_content_appends.
  - by eapply appended_first.
  - apply appended_lookup_children.
  - apply last_snoc.
  - by apply appended_lookup_entry.
  - apply new_entry_fresh.
  - by apply appended_lookup_new_children.
  - apply new_children_fresh.
Qed.

Lemma on_page_content_new_entry_childless_witness :
  ∃ (h' : heap) (kids : list loc) (n k : loc),
    on_page_content "" 1 11 12 sample_heap = Ok (tt, h') ∧
    h' !! 5%positive = Some (OLink "Contributing" "contributing" 1 7) ∧
    h' !! 7%positive = Some (OList kids) ∧
    last kids = Some n ∧
    h' !! n = Some (OLink "Comments" "comments" 2 k) ∧
    sample_heap !! n = None ∧
    h' !! k = Some (OList []) ∧
    sample_heap !! k = None.
Proof.
  apply (on_page_content_new_entry_childless "" 1 11 12 sample_heap 5
           [6%positive] sample_meta (PyBool true)
           "Contributing" "contributing" 1 7 [9%positive]).
  - apply sample_is_page.
  - vm_compute. reflexivity.
  - reflexivity.
  - vm_compute. reflexivity.
  - vm_compute. reflexivity.
Defined.

(** The constructor on its own: any heap, any arguments. *)
Lemma AnchorLink_childless (title id : string) (level : Z) (h : heap) :
  ∃ (h' : heap) (n k : loc),
    AnchorLink title id level h = Ok (n, h') ∧
    h' !! n = Some (OLink title id level k) ∧
    h' !! k = Some (OList []) ∧
    h !! n = None ∧ h !! k = None ∧
    (∀ l, is_Some (h !! l) → h' !! l = h !! l).
Proof.
  exists (<[new_entry h := OLink title id level (new_children h)]>
            (<[new_children h := OList []]> h)),
    (new_entry h), (new_children h).
  pose proof (new_entry_neq_children h) as Hne.
  split_and!.
  - apply AnchorLink_run.
  - by rewrite lookup_insert_eq.
  - rewrite lookup_insert_ne by done. by rewrite lookup_insert_eq.
  - apply new_entry_fresh.
  - apply new_children_fresh.
  - intros l Hl. destruct (allocated_neq_new h l Hl) as [H1 H2].
    by rewrite !lookup_insert_ne.
Qed.

(** ** Objects the hook never reads *)

(** On a page with a first entry and a request for comments the hook comes
    down to its last statement. *)
Lemma on_page_content_tail (html : string) (page config files : loc)
  (h : heap) (e : loc) (es : list loc) (md : gmap string PyVal) (v : PyVal) :
  is_page h page (e :: es) md →
  md !! "comments" = Some v →
  truthy v = true →
  on_page_content html page config files h = append_comments_to e h.
Proof.
  intros Hpage Hc Hv.
  destruct Hpage as [m Hp Hm [=] | t its m Hp Ht Hi Hm].
  unfold append_comments_to. run_hook. rewrite Hv. by run_hook.
Qed.

Section bystander.
Context (l : loc) (o o' : obj) (h : heap).
Hypothesis Hl : h !! l = Some o.
Hypothesis Ho : is_bystander o = true.
Hypothesis Ho' : is_bystander o' = true.

Lemma swap_dom : dom (<[l := o']> h) = dom h.
Proof.
  apply dom_insert_lookup_L. by rewrite Hl.
Qed.

Lemma swap_new_children : new_children (<[l := o']> h) = new_children h.
Proof. unfold new_children. by rewrite swap_dom. Qed.

Lemma swap_new_entry : new_entry (<[l := o']> h) = new_entry h.
Proof.
  unfold new_entry. rewrite swap_new_children.
  by rewrite (dom_insert_L (<[l := o']> h)), swap_dom, (dom_insert_L h).
Qed.

Lemma swap_lookup_ne (x : loc) (ox : obj) :
  h !! x = Some ox → is_bystander ox = false →
  <[l := o']> h !! x = Some ox.
Proof.
  intros Hx Hk. rewrite lookup_insert_ne; [done|].
  intros ->. rewrite Hl in Hx. injection Hx as ->. congruence.
Qed.

Lemma swap_is_page (page : loc) (entries : list loc)
  (md : gmap string PyVal) :
  is_page h page entries md → is_page (<[l := o']> h) page entries md.
Proof.
  intros [m Hp Hm He | t its m Hp Ht Hi Hm].
  - apply (page_without_toc _ _ _ _ m); [| |done];
      by apply swap_lookup_ne.
  - apply (page_with_toc _ _ _ _ t its m); by apply swap_lookup_ne.
Qed.

Lemma swap_append_comments_to (first : loc) :
  append_comments_to first (<[l := o']> h) =
  match append_comments_to first h with
  | Ok (u, h') => Ok (u, <[l := o']> h')
  | Raise x => Raise x
  end.
Proof.
  assert (Hsome : is_Some (h !! l)) by (by rewrite Hl).
  destruct (allocated_neq_new h l Hsome) as [Hlk Hln].
  unfold append_comments_to, getattr_children, bind, deref, ret, raise.
  destruct (decide (first = l)) as [-> | Hfl].
  { rewrite lookup_insert_eq, Hl. by destruct o, o'. }
  rewrite lookup_insert_ne by done.
  destruct (h !! first) as [[| | |ti i lv ch| | |]|]; try done.
  rewrite !AnchorLink_run, swap_new_entry, swap_new_children.
  unfold list_append, bind, deref, store, raise.
  rewrite (insert_insert_ne h (new_children h) l) by done.
  rewrite (insert_insert_ne _ (new_entry h) l) by done.
  set (ha := <[new_entry h := _]> (<[new_children h := _]> h)).
  assert (Hla : ha !! l = Some o) by (unfold ha; by rewrite !lookup_insert_ne).
  destruct (decide (ch = l)) as [-> | Hcl].
  { rewrite lookup_insert_eq, Hla. by destruct o, o'. }
  rewrite lookup_insert_ne by done.
  destruct (ha !! ch) as [[]|]; try done.
  by rewrite insert_insert_ne.
Qed.

(** Swapping a configuration or a file collection for another one changes
    nothing in what the hook does to a page. *)
Lemma swap_on_page_content (html : string) (page config files : loc)
  (entries : list loc) (md : gmap string PyVal) :
  is_page h page entries md →
  on_page_content html page config files (<[l := o']> h) =
  match on_page_content html page config files h with
  | Ok (u, h') => Ok (u, <[l := o']> h')
  | Raise x => Raise x
  end.
Proof.
  intros Hpage. pose proof (swap_is_page _ _ _ Hpage) as Hpage'.
  destruct entries as [| e es].
  { by rewrite !(on_page_content_no_entries _ _ _ _ _ [] md). }
  destruct (truthy (default PyNone (md !! "comments"))) eqn:Hc.
  - destruct (md !! "comments") as [v|] eqn:Hv; [|done]. cbn in Hc.
    rewrite !(on_page_content_tail _ _ _ _ _ e es md v) by done.
    apply swap_append_comments_to.
  - by rewrite !(on_page_content_no_comments _ _ _ _ _ (e :: es) md).
Qed.
End bystander.

(** C9.  The hook looks at nothing but the page.  With the same page on
    the same heap, any [html], [config] and [files] give the same outcome;
    a call that returns leaves the configuration and the file collection
    as they were; and with other contents in the configuration and in the
    file collection the hook does to a page exactly what it did before. *)
Theorem on_page_content_page_only
  (html html' : string) (page config config' files files' : loc) (h : heap) :
  on_page_content html page config files h =
  on_page_content html' page config' files' h ∧
  (∀ (h' : heap) (u : unit),
     on_page_content html page config files h = Ok (u, h') →
     (∀ data, h !! config = Some (OConfig data) →
              h' !! config = Some (OConfig data)) ∧
     (∀ paths, h !! files = Some (OFiles paths) →
               h' !! files = Some (OFiles paths))) ∧
  (∀ (entries : list loc) (md data data' : gmap string PyVal)
     (paths paths' : list string),
     is_page h page entries md →
     h !! config = Some (OConfig data) →
     h !! files = Some (OFiles paths) →
     on_page_content html page config files
       (<[config := OConfig data']> (<[files := OFiles paths']> h)) =
     match on_page_content html page config files h with
     | Ok (u, h') =>
         Ok (u, <[config := OConfig data']> (<[files := OFiles paths']> h'))
     | Raise x => Raise x
     end).
Proof.
  split_and!.
  - reflexivity.
  - intros h' u Hrun. split.
    + intros data Hc. by eapply on_page_content_frame.
    + intros paths Hf. by eapply on_page_content_frame.
  - intros entries md data data' paths paths' Hpage Hc Hf.
    assert (Hc' : <[files := OFiles paths']> h !! config =
                  Some (OConfig data)).
    { rewrite lookup_insert_ne; [done|]. intros ->. congruence. }
    rewrite (swap_on_page_content config (OConfig data) (OConfig data')
               _ Hc' eq_refl eq_refl html page config files entries md)
      by (by eapply swap_is_page).
    rewrite (swap_on_page_content files (OFiles paths) (OFiles paths')
               h Hf eq_refl eq_refl html page config files entries md)
      by done.
    by destruct (on_page_content html page config files h) as [[u h']|].
Qed.

(** On the sample page: other arguments, same heap afterwards, with the
    configuration and the files in it untouched. *)
Example on_page_content_page_only_sample :
  ∃ h', on_page_content "<p>a</p>" 1 11 12 sample_heap = Ok (tt, h') ∧
        on_page_content "<p>b</p>" 1 12 11 sample_heap = Ok (tt, h') ∧
        h' !! 11%positive = sample_heap !! 11%positive ∧
        h' !! 12%positive = sample_heap !! 12%positive.
Proof. eexists. vm_compute. split_and!; reflexivity. Qed.

(** * The copyright hook *)

Example copyright_template_2024 : copyright_template "2024" = copyright_2024.
Proof. vm_compute. reflexivity. Qed.

(** The f-string of the source is the template of the spec. *)
Lemma copyright_fstring_template (y : Z) :
  copyright_fstring y = copyright_template (format_int y).
Proof. reflexivity. Qed.

(** Years of four digits print as those four digits. *)
Lemma format_int_four_digits (y : Z) :
  (1000 ≤ y ≤ 9999)%Z → format_int y = four_digits y.
Proof.
  intros Hy.
  assert (Hall : forallb (λ n, String.eqb (format_int (1000 + Z.of_nat n))
                                 (four_digits (1000 + Z.of_nat n)))
                   (seq 0 (Z.to_nat 9000)) = true) by (vm_compute; reflexivity).
  rewrite forallb_forall in Hall.
  specialize (Hall (Z.to_nat (y - 1000))).
  replace (1000 + Z.of_nat (Z.to_nat (y - 1000))) with y in Hall by lia.
  apply String.eqb_eq, Hall, in_seq. lia.
Qed.

Example format_int_samples :
  format_int 2024 = "2024" ∧ format_int 1999 = "1999" ∧
  format_int 987 = "987" ∧ format_int 0 = "0" ∧ format_int (-3) = "-3".
Proof. vm_compute. split_and!; reflexivity. Qed.

(** C1.  Whatever the configuration holds, the hook returns normally and
    [config.copyright] is then the template with the decimal year of the
    clock reading in it; read in 2024, it is the 2024 string of the spec. *)
Theorem on_config_sets_copyright
  (now : datetime) (config : loc) (kwargs : gmap string PyVal)
  (h : heap) (data : gmap string PyVal) :
  h !! config = Some (OConfig data) →
  ∃ h' : heap,
    on_config now config kwargs h = Ok (tt, h') ∧
    config_copyright h' config =
      Some (PyStr (copyright_template (format_int (year now)))) ∧
    ((1000 ≤ year now ≤ 9999)%Z →
     config_copyright h' config =
       Some (PyStr (copyright_template (four_digits (year now))))) ∧
    (year now = 2024 →
     config_copyright h' config = Some (PyStr copyright_2024)).
Proof.
  intros Hc. eexists. split; [by apply on_config_run|].
  rewrite config_copyright_on_config. split_and!.
  - reflexivity.
  - intros Hy. by rewrite copyright_fstring_template, format_int_four_digits.
  - intros ->. by rewrite copyright_fstring_2024.
Qed.

Lemma on_config_sets_copyright_witness :
  ∃ h' : heap,
    on_config sample_now 11 ∅ sample_heap = Ok (tt, h') ∧
    config_copyright h' 11 =
      Some (PyStr (copyright_template (format_int (year sample_now)))) ∧
    ((1000 ≤ year sample_now ≤ 9999)%Z →
     config_copyright h' 11 =
       Some (PyStr (copyright_template (four_digits (year sample_now))))) ∧
    (year sample_now = 2024 →
     config_copyright h' 11 = Some (PyStr copyright_2024)).
Proof.
  apply (on_config_sets_copyright sample_now 11 ∅ sample_heap sample_data).
  vm_compute. reflexivity.
Defined.

Example on_config_2024 :
  ∃ h', on_config sample_now 11 ∅ sample_heap = Ok (tt, h') ∧
        config_copyright sample_heap 11 = Some (PyStr "(c) somebody") ∧
        config_copyright h' 11 = Some (PyStr copyright_2024).
Proof. eexists. vm_compute. split_and!; reflexivity. Qed.

(** C6.  Two calls made while the clock reads the same year, on whatever
    configurations, leave the same string in [config.copyright]; a second
    call on the same configuration in the same year changes nothing any
    more. *)
Theorem on_config_same_year
  (now1 now2 : datetime) (c1 c2 : loc) (kw1 kw2 : gmap string PyVal)
  (h1 h2 : heap) (d1 d2 : gmap string PyVal) :
  h1 !! c1 = Some (OConfig d1) →
  h2 !! c2 = Some (OConfig d2) →
  year now1 = year now2 →
  ∃ (h1' h2' : heap) (s : string),
    on_config now1 c1 kw1 h1 = Ok (tt, h1') ∧
    on_config now2 c2 kw2 h2 = Ok (tt, h2') ∧
    config_copyright h1' c1 = Some (PyStr s) ∧
    config_copyright h2' c2 = Some (PyStr s) ∧
    on_config now2 c1 kw2 h1' = Ok (tt, h1') ∧
    (on_config now1 c1 kw1 ;; on_config now2 c1 kw2) h1 = Ok (tt, h1').
Proof.
  intros Hc1 Hc2 Hy.
  pose proof (on_config_run now1 c1 kw1 h1 d1 Hc1) as Hrun1.
  pose proof (on_config_run now2 c2 kw2 h2 d2 Hc2) as Hrun2.
  set (s := copyright_fstring (year now1)) in *.
  set (h1' := <[c1 := OConfig (<["copyright" := PyStr s]> d1)]> h1) in *.
  assert (Hagain : on_config now2 c1 kw2 h1' = Ok (tt, h1')).
  { rewrite (on_config_run now2 c1 kw2 h1' (<["copyright" := PyStr s]> d1))
      by apply lookup_insert_eq.
    rewrite <- Hy. fold s. unfold h1'.
    by rewrite !insert_insert_eq. }
  exists h1', (<[c2 := OConfig (<["copyright" := PyStr s]> d2)]> h2), s.
  split_and!.
  - done.
  - rewrite Hrun2. unfold s. by rewrite Hy.
  - apply config_copyright_on_config.
  - apply config_copyright_on_config.
  - done.
  - unfold bind. by rewrite Hrun1.
Qed.

Lemma on_config_same_year_witness :
  ∃ (h1' h2' : heap) (s : string),
    on_config sample_now 11 ∅ sample_heap = Ok (tt, h1') ∧
    on_config sample_later 1 ∅ sample_heap_bare = Ok (tt, h2') ∧
    config_copyright h1' 11 = Some (PyStr s) ∧
    config_copyright h2' 1 = Some (PyStr s) ∧
    on_config sample_later 11 ∅ h1' = Ok (tt, h1') ∧
    (on_config sample_now 11 ∅ ;; on_config sample_later 11 ∅) sample_heap =
      Ok (tt, h1').
Proof.
  apply (on_config_same_year sample_now sample_later 11 1 ∅ ∅
           sample_heap sample_heap_bare sample_data ∅).
  - vm_compute. reflexivity.
  - vm_compute. reflexivity.
  - reflexivity.
Defined.

(** C7.  The year is taken from the clock at the call: on the same
    configuration, calls made in different years leave different strings
    in [config.copyright], and so different heaps. *)
Theorem on_config_differs_across_years
  (now1 now2 : datetime) (config : loc) (kw1 kw2 : gmap string PyVal)
  (h : heap) (data : gmap string PyVal) :
  h !! config = Some (OConfig data) →
  year now1 ≠ year now2 →
  ∃ h1 h2 : heap,
    on_config now1 config kw1 h = Ok (tt, h1) ∧
    on_config now2 config kw2 h = Ok (tt, h2) ∧
    config_copyright h1 config ≠ config_copyright h2 config ∧
    h1 ≠ h2.
Proof.
  intros Hc Hy.
  assert (Hne : config_copyright
                  (<[config := OConfig (<["copyright" :=
                       PyStr (copyright_fstring (year now1))]> data)]> h)
                  config ≠
                config_copyright
                  (<[config := OConfig (<["copyright" :=
                       PyStr (copyright_fstring (year now2))]> data)]> h)
                  config).
  { rewrite !config_copyright_on_config. intros Heq.
    apply Hy, copyright_fstring_inj. congruence. }
  eexists _, _. split_and!.
  - by apply on_config_run.
  - by apply on_config_run.
  - exact Hne.
  - intros Heq. apply Hne. by rewrite Heq.
Qed.

Lemma on_config_differs_across_years_witness :
  ∃ h1 h2 : heap,
    on_config sample_now 11 ∅ sample_heap = Ok (tt, h1) ∧
    on_config sample_next_year 11 ∅ sample_heap = Ok (tt, h2) ∧
    config_copyright h1 11 ≠ config_copyright h2 11 ∧
    h1 ≠ h2.
Proof.
  apply (on_config_differs_across_years sample_now sample_next_year 11 ∅ ∅
           sample_heap sample_data).
  - vm_compute. reflexivity.
  - discriminate.
Defined.

Example on_config_2025 :
  ∃ h', on_config sample_next_year 11 ∅ sample_heap = Ok (tt, h') ∧
        config_copyright h' 11 =
          Some (PyStr (copyright_template "2025")).
Proof. eexists. vm_compute. split; reflexivity. Qed.

(** C10.  What the hook writes does not depend on what the configuration
    held: two configurations processed in the same year end with the same
    [copyright] entry, whatever either held there before, every other
    option of each keeps its value, and no other object changes. *)
Theorem on_config_ignores_prior_state
  (now1 now2 : datetime) (c1 c2 : loc) (kw1 kw2 : gmap string PyVal)
  (h1 h2 : heap) (d1 d2 : gmap string PyVal) :
  h1 !! c1 = Some (OConfig d1) →
  h2 !! c2 = Some (OConfig d2) →
  year now1 = year now2 →
  ∃ (h1' h2' : heap) (d1' d2' : gmap string PyVal) (s : string),
    on_config now1 c1 kw1 h1 = Ok (tt, h1') ∧
    on_config now2 c2 kw2 h2 = Ok (tt, h2') ∧
    h1' !! c1 = Some (OConfig d1') ∧
    h2' !! c2 = Some (OConfig d2') ∧
    d1' !! "copyright" = Some (PyStr s) ∧
    d2' !! "copyright" = Some (PyStr s) ∧
    (∀ k, k ≠ "copyright" → d1' !! k = d1 !! k) ∧
    (∀ k, k ≠ "copyright" → d2' !! k = d2 !! k) ∧
    (∀ l, l ≠ c1 → h1' !! l = h1 !! l) ∧
    (∀ l, l ≠ c2 → h2' !! l = h2 !! l).
Proof.
  intros Hc1 Hc2 Hy.
  eexists _, _, _, _, (copyright_fstring (year now1)). split_and!.
  - by apply on_config_run.
  - by apply on_config_run.
  - apply lookup_insert_eq.
  - apply lookup_insert_eq.
  - apply lookup_insert_eq.
  - rewrite Hy. apply lookup_insert_eq.
  - intros k Hk. by rewrite lookup_insert_ne.
  - intros k Hk. by rewrite lookup_insert_ne.
  - intros l Hl. by rewrite lookup_insert_ne.
  - intros l Hl. by rewrite lookup_insert_ne.
Qed.

Lemma on_config_ignores_prior_state_witness :
  ∃ (h1' h2' : heap) (d1' d2' : gmap string PyVal) (s : string),
    on_config sample_now 11 ∅ sample_heap = Ok (tt, h1') ∧
    on_config sample_later 1 ∅ sample_heap_bare = Ok (tt, h2') ∧
    h1' !! 11%positive = Some (OConfig d1') ∧
    h2' !! 1%positive = Some (OConfig d2') ∧
    d1' !! "copyright" = Some (PyStr s) ∧
    d2' !! "copyright" = Some (PyStr s) ∧
    (∀ k, k ≠ "copyright" → d1' !! k = sample_data !! k) ∧
    (∀ k, k ≠ "copyright" → d2' !! k = (∅ : gmap string PyVal) !! k) ∧
    (∀ l, l ≠ 11%positive → h1' !! l = sample_heap !! l) ∧
    (∀ l, l ≠ 1%positive → h2' !! l = sample_heap_bare !! l).
Proof.
  apply (on_config_ignores_prior_state sample_now sample_later 11 1 ∅ ∅
           sample_heap sample_heap_bare sample_data ∅).
  - vm_compute. reflexivity.
  - vm_compute. reflexivity.
  - reflexivity.
Defined.

(** * Further properties of the two hooks *)

(** X1.  The table of contents is tested before the metadata: when it is
    absent or has no entry, the hook returns with the heap as it was
    without ever looking at [page.meta], whatever that refers to. *)
Theorem on_page_content_meta_unread
  (html : string) (page config files : loc) (h : heap) (m : loc) :
  h !! page = Some (OPage None m) ∨
  (∃ t its, h !! page = Some (OPage (Some t) m) ∧
            h !! t = Some (OToc its) ∧ h !! its = Some (OList [])) →
  on_page_content html page config files h = Ok (tt, h).
Proof.
  intros [Hp | (t & its & Hp & Ht & Hi)]; by run_hook.
Qed.

Lemma on_page_content_meta_unread_witness :
  sample_heap_odd_meta !! 12%positive =
    Some (OFiles ["index.md"; "contributing.md"]) ∧
  on_page_content "" 1 11 12 sample_heap_odd_meta =
    Ok (tt, sample_heap_odd_meta).
Proof.
  split; [vm_compute; reflexivity|].
  apply (on_page_content_meta_unread "" 1 11 12 sample_heap_odd_meta 12).
  left. vm_compute. reflexivity.
Defined.






(** The string ["false"] is not a false value: comments are appended. *)
Example on_page_content_string_false :
  ∃ h', on_page_content "" 1 11 12 sample_heap_string_flag = Ok (tt, h') ∧
        h' !! 7%positive = Some (OList [9; 14]%positive).
Proof. eexists. vm_compute. split; reflexivity. Qed.

(** ** What no run of the table-of-contents hook does *)







(** ** The two hooks together *)

(** X5.  The hooks do not get in each other's way: on a heap holding a
    page and a configuration, stamping the copyright and then processing
    the page comes to the same as processing the page and then stamping
    the copyright, heap and exception alike. *)
Theorem hooks_commute
  (now : datetime) (kwargs : gmap string PyVal)
  (html : string) (page config files : loc) (h : heap)
  (entries : list loc) (md data : gmap string PyVal) :
  is_page h page entries md →
  h !! config = Some (OConfig data) →
  (on_config now config kwargs ;;
   on_page_content html page config files) h =
  (on_page_content html page config files ;;
   on_config now config kwargs) h.
Proof.
  intros Hpage Hc. unfold bind.
  rewrite (on_config_run now config kwargs h data Hc).
  rewrite (swap_on_page_content config (OConfig data)
             (OConfig (<["copyright" :=
                          PyStr (copyright_fstring (year now))]> data))
             h Hc eq_refl eq_refl html page config files entries md Hpage).
  destruct (on_page_content html page config files h) as [[[] h']|] eqn:Hrun;
    [|done].
  symmetry. apply on_config_run. by eapply on_page_content_frame.
Qed.

Lemma hooks_commute_witness :
  (on_config sample_now 11 ∅ ;; on_page_content "" 1 11 12) sample_heap =
  (on_page_content "" 1 11 12 ;; on_config sample_now 11 ∅) sample_heap.
Proof.
  apply (hooks_commute sample_now ∅ "" 1 11 12 sample_heap
           [5; 6]%positive sample_meta sample_data).
  - apply sample_is_page.
  - vm_compute. reflexivity.
Defined.

(** X6.  Each call of the copyright hook overwrites what the one before
    wrote: two calls in a row, whatever the clock read at either, leave
    the heap exactly as the second call alone leaves it. *)
Theorem on_config_last_call_wins
  (now1 now2 : datetime) (config : loc) (kw1 kw2 : gmap string PyVal)
  (h : heap) (data : gmap string PyVal) :
  h !! config = Some (OConfig data) →
  (on_config now1 config kw1 ;; on_config now2 config kw2) h =
  on_config now2 config kw2 h.
Proof.
  intros Hc. unfold bind.
  rewrite (on_config_run now1 config kw1 h data Hc).
  rewrite (on_config_run now2 config kw2 h data Hc).
  rewrite (on_config_run now2 config kw2 _ _ (lookup_insert_eq _ _ _)).
  by rewrite !insert_insert_eq.
Qed.

Lemma on_config_last_call_wins_witness :
  (on_config sample_now 11 ∅ ;; on_config sample_next_year 11 ∅)
    sample_heap =
  on_config sample_next_year 11 ∅ sample_heap.
Proof.
  apply (on_config_last_call_wins sample_now sample_next_year 11 ∅ ∅
           sample_heap sample_data).
  vm_compute. reflexivity.
Defined.

(** ** Calling the hook again and again *)

Lemma appended_is_Some (h : heap) (ch : loc) (cs : list loc) (l : loc) :
  is_Some (h !! l) → is_Some (appended h ch cs !! l).
Proof.
  intros Hl. destruct (decide (l = ch)) as [-> | Hne].
  - by rewrite appended_lookup_children.
  - by rewrite appended_lookup_ne.
Qed.

Lemma appended_None (h : heap) (ch : loc) (cs : list loc) (l : loc) :
  appended h ch cs !! l = None → h !! l = None.
Proof.
  intros Hl. destruct (h !! l) as [o|] eqn:Ho; [|done].
  assert (Hs : is_Some (appended h ch cs !! l))
    by (apply appended_is_Some; by rewrite Ho).
  rewrite Hl in Hs. by destruct Hs.
Qed.

(** X3.  Nothing stops the hook from being applied to the same page over
    and over: [k] calls in a row all return, and the first entry's child
    list ends with [k] new entries, all different objects, each titled
    ["Comments"] with anchor ["comments"], level [2] and an empty child
    list; every other object that was there is as it was. *)
Theorem on_page_content_repeated
  (k : nat) (html : string) (page config files : loc) (e : loc)
  (md : gmap string PyVal) (v : PyVal) (ti i : string) (lv : Z) (ch : loc)
  (h : heap) (es : list loc) (cs : list loc) :
  is_page h page (e :: es) md →
  md !! "comments" = Some v →
  truthy v = true →
  h !! e = Some (OLink ti i lv ch) →
  h !! ch = Some (OList cs) →
  ∃ (h' : heap) (news : list loc),
    repeat_hook k (on_page_content html page config files) h = Ok (tt, h') ∧
    h' !! ch = Some (OList (cs ++ news)) ∧
    length news = k ∧
    NoDup news ∧
    Forall (λ n, h !! n = None ∧
                 ∃ kids, h' !! n = Some (OLink "Comments" "comments" 2 kids) ∧
                         h' !! kids = Some (OList [])) news ∧
    (∀ l, is_Some (h !! l) → l ≠ ch → h' !! l = h !! l).
Proof.
  intros Hpage Hc Hv. revert h es cs Hpage.
  induction k as [| k IH]; intros h es cs Hpage He Hch.
  { exists h, []. split_and!; try done.
    - by rewrite app_nil_r.
    - constructor. }
  pose proof (on_page_content_appends html page config files h e es md v
                ti i lv ch cs Hpage Hc Hv He Hch) as Hrun.
  set (h1 := appended h ch cs) in *.
  destruct (appended_is_page page h e es md ti i lv ch cs Hpage He Hch)
    as [es' Hpage1].
  pose proof (appended_first h e ti i lv ch cs He Hch) as He1.
  pose proof (appended_lookup_children h ch cs) as Hch1.
  fold h1 in Hpage1, He1, Hch1.
  destruct (IH h1 es' (cs ++ [new_entry h]) Hpage1 He1 Hch1)
    as (h' & news & Hrep & Hlist & Hlen & Hnd & Hall & Hframe).
  assert (Hsome : is_Some (h !! ch)) by (by rewrite Hch).
  destruct (allocated_neq_new h ch Hsome) as [Hchk Hchn].
  assert (Hn1 : h1 !! new_entry h =
                Some (OLink "Comments" "comments" 2 (new_children h)))
    by (by apply appended_lookup_entry).
  assert (Hk1 : h1 !! new_children h = Some (OList []))
    by (by apply appended_lookup_new_children).
  exists h', (new_entry h :: news). split_and!.
  - cbn [repeat_hook]. unfold bind. by rewrite Hrun.
  - rewrite Hlist. by rewrite <- app_assoc.
  - cbn. by rewrite Hlen.
  - apply NoDup_cons. split; [|done].
    intros Hin. rewrite Forall_forall in Hall.
    destruct (Hall _ Hin) as [Hnone _]. by rewrite Hn1 in Hnone.
  - apply Forall_cons. split.
    + split; [apply new_entry_fresh|].
      exists (new_children h). split.
      * rewrite Hframe; [done | by rewrite Hn1 | done].
      * rewrite Hframe; [done | by rewrite Hk1 | done].
    + eapply Forall_impl; [exact Hall|].
      intros n [Hnone Hrest]. split; [|done]. by eapply appended_None.
  - intros l Hl Hne. rewrite Hframe; [| by apply appended_is_Some | done].
    by apply appended_lookup_ne.
Qed.

Lemma on_page_content_repeated_witness :
  ∃ (h' : heap) (news : list loc),
    repeat_hook 3 (on_page_content "" 1 11 12) sample_heap = Ok (tt, h') ∧
    h' !! 7%positive = Some (OList ([9%positive] ++ news)) ∧
    length news = 3%nat ∧
    NoDup news ∧
    Forall (λ n, sample_heap !! n = None ∧
                 ∃ kids, h' !! n = Some (OLink "Comments" "comments" 2 kids) ∧
                         h' !! kids = Some (OList [])) news ∧
    (∀ l, is_Some (sample_heap !! l) → l ≠ 7%positive →
          h' !! l = sample_heap !! l).
Proof.
  apply (on_page_content_repeated 3 "" 1 11 12 5 sample_meta (PyBool true)
           "Contributing" "contributing" 1 7 sample_heap [6%positive]
           [9%positive]).
  - apply sample_is_page.
  - vm_compute. reflexivity.
  - reflexivity.
  - vm_compute. reflexivity.
  - vm_compute. reflexivity.
Defined.

(** ** The table of contents as a tree *)

Lemma read_all_app {A : Type} (r : loc → option (A * list loc))
  (xs ys : list loc) :
  read_all r (xs ++ ys) =
  match read_all r xs, read_all r ys with
  | Some (a, f), Some (b, g) => Some (a ++ b, f ++ g)
  | _, _ => None
  end.
Proof.
  induction xs as [| x xs IH]; cbn.
  - by destruct (read_all r ys) as [[b g]|].
  - rewrite IH. destruct (r x) as [[a f]|]; [|done].
    destruct (read_all r xs) as [[a' f']|]; [|done].
    destruct (read_all r ys) as [[b g]|]; [|done].
    by rewrite <- app_assoc.
Qed.

Lemma read_all_preserved {A : Type} (r r' : loc → option (A * list loc))
  (ch : loc) (xs : list loc) (ts : list A) (fp : list loc) :
  (∀ x t fpx, r x = Some (t, fpx) → ch ∉ fpx → r' x = Some (t, fpx)) →
  read_all r xs = Some (ts, fp) → ch ∉ fp →
  read_all r' xs = Some (ts, fp).
Proof.
  intros Hr. revert ts fp.
  induction xs as [| x xs IH]; intros ts fp Hread Hch; cbn in *; [done|].
  destruct (r x) as [[a f]|] eqn:Hx; [|done].
  destruct (read_all r xs) as [[l fs]|] eqn:Hxs; [|done].
  simplify_eq. rewrite not_elem_of_app in Hch. destruct Hch as [Hf Hfs].
  by rewrite (Hr x a f Hx Hf), (IH l fs eq_refl Hfs).
Qed.

Lemma read_all_footprint {A : Type} (r : loc → option (A * list loc))
  (P : loc → Prop) (xs : list loc) (ts : list A) (fp : list loc) :
  (∀ x t fpx, r x = Some (t, fpx) → Forall P fpx) →
  read_all r xs = Some (ts, fp) → Forall P fp.
Proof.
  intros Hr. revert ts fp.
  induction xs as [| x xs IH]; intros ts fp Hread; cbn in *.
  - simplify_eq. constructor.
  - destruct (r x) as [[a f]|] eqn:Hx; [|done].
    destruct (read_all r xs) as [[l fs]|] eqn:Hxs; [|done].
    simplify_eq. apply Forall_app. split; [by eapply Hr | by eapply IH].
Qed.

(** Every list a tree is read from is an object of the heap. *)
Lemma read_entry_footprint (fuel : nat) (h : heap) (l : loc)
  (t : Tree) (fp : list loc) :
  read_entry fuel h l = Some (t, fp) →
  Forall (λ c, is_Some (h !! c)) fp.
Proof.
  revert l t fp. induction fuel as [| fuel IH]; intros l t fp Hread;
    cbn in Hread; [done|].
  destruct (h !! l) as [[| | |ti i lv c| | |]|]; try done.
  destruct (h !! c) as [[| |xs| | | |]|] eqn:Hc; try done.
  destruct (read_all (read_entry fuel h) xs) as [[kids fpk]|] eqn:Hk;
    [|done].
  simplify_eq. apply Forall_cons. split; [by rewrite Hc|].
  eapply read_all_footprint; [|exact Hk]. intros x t fpx. apply IH.
Qed.

(** A tree reads the same after a change to a list it is not made of. *)
Lemma read_entry_preserved (h h' : heap) (ch : loc) (cs : list loc) :
  h !! ch = Some (OList cs) →
  (∀ l, is_Some (h !! l) → l ≠ ch → h' !! l = h !! l) →
  ∀ (fuel : nat) (l : loc) (t : Tree) (fp : list loc),
    read_entry fuel h l = Some (t, fp) → ch ∉ fp →
    read_entry fuel h' l = Some (t, fp).
Proof.
  intros Hch Hframe fuel.
  induction fuel as [| fuel IH]; intros l t fp Hread Hnot;
    cbn in Hread |- *; [done|].
  destruct (h !! l) as [[| | |ti i lv c| | |]|] eqn:Hl; try done.
  destruct (h !! c) as [[| |xs| | | |]|] eqn:Hc; try done.
  destruct (read_all (read_entry fuel h) xs) as [[kids fpk]|] eqn:Hk;
    [|done].
  simplify_eq. rewrite not_elem_of_cons in Hnot. destruct Hnot as [Hne Hfp].
  rewrite Hframe, Hl; [| by rewrite Hl | congruence].
  rewrite Hframe, Hc; [| by rewrite Hc | done].
  by rewrite (read_all_preserved _ (read_entry fuel h') ch xs kids fpk IH Hk Hfp).
Qed.

Lemma read_entry_S (fuel : nat) (h : heap) (l : loc) :
  read_entry (S fuel) h l =
  match h !! l with
  | Some (OLink title id level children) =>
      match h !! children with
      | Some (OList xs) =>
          match read_all (read_entry fuel h) xs with
          | Some (kids, fp) => Some (Node title id level kids, children :: fp)
          | None => None
          end
      | _ => None
      end
  | _ => None
  end.
Proof. reflexivity. Qed.

(** X7.  On a table of contents that is a tree, no list object occurring
    twice in it, the hook does to the tree that is shown what appending a
    leaf does: the first top-level heading gets one more child at the end,
    a heading ["Comments"] with anchor ["comments"], level [2] and nothing
    below it; the headings it already had and all other top-level headings
    read exactly as before, and the table of contents is still a tree. *)
Theorem on_page_content_tree
  (fuel : nat) (html : string) (page config files : loc) (h : heap)
  (e : loc) (es : list loc) (md : gmap string PyVal) (v : PyVal)
  (ti i : string) (lv : Z) (kids rest : list Tree) (fp : list loc) :
  is_page h page (e :: es) md →
  md !! "comments" = Some v →
  truthy v = true →
  read_toc (S (S fuel)) h page = Some (Node ti i lv kids :: rest, fp) →
  NoDup fp →
  ∃ (h' : heap) (fp' : list loc),
    on_page_content html page config files h = Ok (tt, h') ∧
    read_toc (S (S fuel)) h' page =
      Some (Node ti i lv (kids ++ [Node "Comments" "comments" 2 []]) :: rest,
            fp') ∧
    NoDup fp'.
Proof.
  intros Hpage Hc Hv Hread Hnd.
  pose proof Hpage as [m Hp Hm [=] | t its m Hp Ht Hi Hm].
  unfold read_toc in Hread. rewrite Hp, Ht, Hi in Hread.
  cbn [read_all] in Hread.
  destruct (read_entry (S (S fuel)) h e) as [[t1 fp1]|] eqn:He1; [|done].
  destruct (read_all (read_entry (S (S fuel)) h) es) as [[ts fps]|] eqn:Hes;
    [|done].
  simplify_eq.
  rewrite read_entry_S in He1.
  destruct (h !! e) as [[| | |ti' i' lv' ch| | |]|] eqn:He; try done.
  destruct (h !! ch) as [[| |cs| | | |]|] eqn:Hch; try done.
  destruct (read_all (read_entry (S fuel) h) cs) as [[kids' fpk]|] eqn:Hk;
    [|done].
  simplify_eq.
  pose proof (on_page_content_appends html page config files h e es md v
                ti i lv ch cs Hpage Hc Hv He Hch) as Hrun.
  set (h' := appended h ch cs) in *.
  assert (Hframe : ∀ l, is_Some (h !! l) → l ≠ ch → h' !! l = h !! l)
    by (intros l Hl Hne; by apply appended_lookup_ne).
  assert (Hsome : is_Some (h !! ch)) by (by rewrite Hch).
  apply NoDup_cons in Hnd as [Hits Hnd]. cbn [app] in Hits, Hnd.
  apply NoDup_cons in Hnd as [Hchn Hnd].
  rewrite not_elem_of_cons in Hits. destruct Hits as [Hic Hits].
  rewrite not_elem_of_app in Hchn. destruct Hchn as [Hchk Hchs].
  assert (Hkids : read_all (read_entry (S fuel) h') cs = Some (kids, fpk)).
  { eapply read_all_preserved; [|exact Hk|exact Hchk].
    intros x tx fpx. by apply (read_entry_preserved h h' ch cs). }
  assert (Hrest : read_all (read_entry (S (S fuel)) h') es = Some (rest, fps)).
  { eapply read_all_preserved; [|exact Hes|exact Hchs].
    intros x tx fpx. by apply (read_entry_preserved h h' ch cs). }
  assert (Hleaf : read_entry (S fuel) h' (new_entry h) =
                  Some (Node "Comments" "comments" 2 [], [new_children h])).
  { rewrite read_entry_S. unfold h'.
    rewrite appended_lookup_entry, appended_lookup_new_children by done.
    reflexivity. }
  exists h', (its :: (ch :: fpk ++ [new_children h]) ++ fps). split_and!.
  - done.
  - unfold read_toc.
    rewrite (Hframe page), Hp by (by rewrite Hp || congruence).
    rewrite (Hframe t), Ht by (by rewrite Ht || congruence).
    rewrite (Hframe its), Hi by (by rewrite Hi || congruence).
    cbn [read_all]. rewrite (read_entry_S (S fuel)).
    rewrite (Hframe e), He by (by rewrite He || congruence).
    unfold h' at 1. rewrite appended_lookup_children.
    rewrite read_all_app, Hkids. cbn [read_all]. rewrite Hleaf, Hrest.
    reflexivity.
  - assert (Hfresh : ∀ c, c ∈ its :: (ch :: fpk) ++ fps →
                          c ≠ new_children h).
    { intros c Hin ->.
      assert (Hall : Forall (λ c, is_Some (h !! c))
                       (its :: (ch :: fpk) ++ fps)).
      { apply Forall_cons. split; [by rewrite Hi|].
        apply Forall_app. split.
        - apply Forall_cons. split; [done|].
          eapply read_all_footprint; [|exact Hk].
          intros x tx fpx. apply read_entry_footprint.
        - eapply read_all_footprint; [|exact Hes].
          intros x tx fpx. apply read_entry_footprint. }
      rewrite Forall_forall in Hall. specialize (Hall _ Hin).
      rewrite new_children_fresh in Hall. by destruct Hall. }
    apply NoDup_app in Hnd as (Hndk & Hdisj & Hnds).
    cbn [app]. apply NoDup_cons. split.
    { rewrite not_elem_of_cons, !not_elem_of_app, not_elem_of_cons.
      rewrite not_elem_of_app in Hits. destruct Hits as [Hik Hifs].
      split_and!; try done.
      - apply Hfresh. by left.
      - apply not_elem_of_nil. }
    apply NoDup_cons. split.
    { rewrite !not_elem_of_app, not_elem_of_cons.
      split_and!; try done.
      - apply Hfresh. right. by left.
      - apply not_elem_of_nil. }
    apply NoDup_app. split_and!.
    + apply NoDup_app. split_and!; [done | | apply NoDup_singleton].
      intros c Hin Hc'. apply list_elem_of_singleton in Hc'. subst.
      eapply Hfresh; [|done]. right. right. apply elem_of_app. by left.
    + intros c Hin. apply elem_of_app in Hin as [Hin | Hin].
      * by apply Hdisj.
      * apply list_elem_of_singleton in Hin. subst. intros Hin.
        eapply Hfresh; [|done]. right. right. apply elem_of_app. by right.
    + done.
Qed.

Lemma on_page_content_tree_witness :
  ∃ (h' : heap) (fp' : list loc),
    on_page_content "" 1 11 12 sample_heap = Ok (tt, h') ∧
    read_toc 2 h' 1 =
      Some (Node "Contributing" "contributing" 1
              ([Node "Setup" "setup" 2 []] ++
               [Node "Comments" "comments" 2 []]) ::
            [Node "Licence" "licence" 1 []], fp') ∧
    NoDup fp'.
Proof.
  apply (on_page_content_tree 0 "" 1 11 12 sample_heap 5 [6%positive]
           sample_meta (PyBool true) "Contributing" "contributing" 1
           [Node "Setup" "setup" 2 []] [Node "Licence" "licence" 1 []]
           [4; 7; 10; 8]%positive).
  - apply sample_is_page.
  - vm_compute. reflexivity.
  - reflexivity.
  - vm_compute. reflexivity.
  - apply (bool_decide_unpack _). vm_compute. reflexivity.
Defined.

(** X9.  Processing one page leaves every other page alone: a page whose
    table of contents is not built from the list the hook appends to reads
    as the same forest, from the same list objects, after the call. *)
Theorem on_page_content_other_page
  (fuel : nat) (html : string) (page config files : loc) (h : heap)
  (e : loc) (es : list loc) (md : gmap string PyVal) (v : PyVal)
  (ti i : string) (lv : Z) (ch : loc) (cs : list loc)
  (other : loc) (trees : list Tree) (fp : list loc) :
  is_page h page (e :: es) md →
  md !! "comments" = Some v →
  truthy v = true →
  h !! e = Some (OLink ti i lv ch) →
  h !! ch = Some (OList cs) →
  read_toc fuel h other = Some (trees, fp) →
  ch ∉ fp →
  ∃ h' : heap,
    on_page_content html page config files h = Ok (tt, h') ∧
    read_toc fuel h' other = Some (trees, fp).
Proof.
  intros Hpage Hc Hv He Hch Hread Hnot.
  exists (appended h ch cs). split; [by eapply on_page_content_appends|].
  assert (Hframe : ∀ l, is_Some (h !! l) → l ≠ ch →
                        appended h ch cs !! l = h !! l)
    by (intros l Hl Hne; by apply appended_lookup_ne).
  unfold read_toc in Hread |- *.
  destruct (h !! other) as [[[t|] m| | | | | |]|] eqn:Ho; try done.
  - rewrite Hframe, Ho; [| by rewrite Ho | congruence].
    destruct (h !! t) as [[|its| | | | |]|] eqn:Ht; try done.
    rewrite Hframe, Ht; [| by rewrite Ht | congruence].
    destruct (h !! its) as [[| |xs| | | |]|] eqn:Hi; try done.
    destruct (read_all (read_entry fuel h) xs) as [[ts fps]|] eqn:Hxs;
      [|done].
    simplify_eq. rewrite not_elem_of_cons in Hnot.
    destruct Hnot as [Hne Hfps].
    rewrite Hframe, Hi; [| by rewrite Hi | done].
    assert (Hkeep : ∀ x tx fpx, read_entry fuel h x = Some (tx, fpx) →
                      ch ∉ fpx →
                      read_entry fuel (appended h ch cs) x = Some (tx, fpx))
      by (intros x tx fpx; by apply (read_entry_preserved h _ ch cs)).
    by rewrite (read_all_preserved _ _ ch xs _ _ Hkeep Hxs Hfps).
  - rewrite Hframe, Ho; [done | by rewrite Ho | congruence].
Qed.

Lemma sample_two_pages_is_page :
  is_page sample_heap_two_pages 1 [5; 6]%positive sample_meta.
Proof. by apply (page_with_toc _ _ _ _ 2 4 3)%positive; vm_compute. Qed.

Lemma on_page_content_other_page_witness :
  ∃ h' : heap,
    on_page_content "" 1 11 12 sample_heap_two_pages = Ok (tt, h') ∧
    read_toc 2 h' 20 =
      Some ([Node "Changelog" "changelog" 1 []], [22; 24]%positive).
Proof.
  apply (on_page_content_other_page 2 "" 1 11 12 sample_heap_two_pages 5
           [6%positive] sample_meta (PyBool true)
           "Contributing" "contributing" 1 7 [9%positive] 20
           [Node "Changelog" "changelog" 1 []] [22; 24]%positive).
  - apply sample_two_pages_is_page.
  - vm_compute. reflexivity.
  - reflexivity.
  - vm_compute. reflexivity.
  - vm_compute. reflexivity.
  - vm_compute. reflexivity.
  - apply (bool_decide_unpack _). vm_compute. reflexivity.
Defined.
